(** * matrix-appservice-webhooks: the provisioning service

    A shallow embedding of [src/provisioning/ProvisioningService.js] and the
    properties of its permission check and of the three webhook operations
    that are gated by it.

    Conventions of the embedding.
    - A promise is modelled by the outcome it settles to ([Promise.Resolved]
      or [Promise.Rejected] with its reason); a single request is followed
      from call to settlement, interleavings of concurrent requests are not
      modelled.
    - Everything the service does to the outside (log lines, the room-state
      read, the calls into the webhook store) is appended to a trace, and the
      webhook store's state is threaded explicitly: [M A] is a state monad
      over [World].
    - The content of an [m.room.power_levels] event is modelled with integer
      power levels, each of which may be absent. (A JSON [null] is falsy like
      an absent property, and the code replaces every falsy level before it
      compares, so [null] behaves as absence.)
    - A lookup in [users] follows the prototype chain, as a property read
      does: a name without an entry of its own finds what [Object.prototype]
      holds under it, if anything ([JS.Object_prototype]). *)

From Stdlib Require Import ZArith Lia List.
From stdpp Require Import base option strings gmap pretty.

Local Open Scope Z_scope.

(** ** JavaScript values read from a power-level object *)

Module JS.

(** What reading a property of the power-level content yields: [undefined]
    when the property is absent, its integer when it is an entry of the
    object, and otherwise what the object inherits under that name: a
    function or an object, kept by the string it converts to. *)
Inductive value : Type :=
| undefined
| number (n : Z)
| object (text : string).

(** ToBoolean: [undefined] and [0] are the falsy ones. *)
Definition truthy (v : value) : bool :=
  match v with
  | undefined => false
  | number n => negb (n =? 0)
  | object _ => true
  end.

(** [!v] *)
Definition not (v : value) : bool := negb (truthy v).

(** [a <= b]: [undefined] converts to NaN, and so does a function or an
    object, through a string that is not a numeral; every comparison with
    NaN is false. *)
Definition le (a b : value) : bool :=
  match a, b with
  | number x, number y => x <=? y
  | _, _ => false
  end.

(** [String(v)], as string concatenation applies it. *)
Definition toString (v : value) : string :=
  match v with
  | undefined => "undefined"
  | number n => pretty n
  | object text => text
  end.

Definition boolToString (b : bool) : string :=
  if b then "true" else "false".

Definition native (name : string) : string :=
  "function " +:+ name +:+ "() { [native code] }".

(** The properties every plain object inherits from [Object.prototype], each
    with the string its value converts to: the methods, the accessor
    [__proto__], which yields the prototype itself, and [constructor], which
    is [Object]. *)
Definition Object_prototype (k : string) : option string :=
  if bool_decide (k = "constructor") then Some (native "Object")
  else if bool_decide (k = "__proto__") then Some "[object Object]"
  else if bool_decide
            (k ∈ ["__defineGetter__"; "__defineSetter__"; "hasOwnProperty";
                  "__lookupGetter__"; "__lookupSetter__"; "isPrototypeOf";
                  "propertyIsEnumerable"; "toString"; "valueOf";
                  "toLocaleString"])
  then Some (native k)
  else None.

(** [o[k]] on an object holding integers: the entry of [o] itself, or else
    what [o] inherits. *)
Definition get (o : gmap string Z) (k : string) : value :=
  match o !! k with
  | Some n => number n
  | None =>
      match Object_prototype k with
      | Some text => object text
      | None => undefined
      end
  end.

(** Reading a top-level integer property that may be absent. *)
Definition prop (p : option Z) : value :=
  match p with
  | Some n => number n
  | None => undefined
  end.

(** A rejection reason or thrown value: nothing ([Promise.reject()]), a
    string, or an error object of a collaborator, named by its message. *)
Inductive reason : Type :=
| no_reason
| message (s : string)
| error (name : string).

End JS.

(** ** Promises, by their outcome *)

Module Promise.

Inductive t (A : Type) : Type :=
| Resolved (v : A)
| Rejected (r : JS.reason).
Arguments Resolved {A} v.
Arguments Rejected {A} r.

Definition isResolved {A} (p : t A) : bool :=
  match p with Resolved _ => true | Rejected _ => false end.

Definition isRejected {A} (p : t A) : bool :=
  match p with Resolved _ => false | Rejected _ => true end.

End Promise.

Abbreviation Promise := Promise.t.
Abbreviation Resolved := Promise.Resolved.
Abbreviation Rejected := Promise.Rejected.

(** ** The room's power levels and the session handle *)

(** Content of the [m.room.power_levels] state event. *)
Record PowerLevels : Type := {
  users : option (gmap string Z);
  users_default : option Z;
  state_default : option Z
}.

(** The intent: [getClient().credentials.userId] and
    [getClient().getStateEvent(roomId, eventType, stateKey)], which settles
    to the event's content ([None] when it resolves to a falsy value). *)
Record Intent : Type := {
  credentials_userId : string;
  getStateEvent : string -> string -> string -> Promise (option PowerLevels)
}.

(** ** The outside world: trace and store state *)

Module LogService.
Inductive level : Type := Verbose | Info | Warn.
End LogService.

Inductive Event : Type :=
| Log (lvl : LogService.level) (module msg : string)
| ReadStateEvent (roomId eventType stateKey : string)
| StoreCreateWebhook (roomId userId : string)
| StoreListWebhooks (roomId : string)
| StoreDeleteWebhook (roomId hookId : string).

Definition isLog (e : Event) : bool :=
  match e with Log _ _ _ => true | _ => false end.

Definition isRead (e : Event) : bool :=
  match e with ReadStateEvent _ _ _ => true | _ => false end.

Definition isStoreCall (e : Event) : bool :=
  match e with
  | StoreCreateWebhook _ _ | StoreListWebhooks _ | StoreDeleteWebhook _ _ => true
  | _ => false
  end.

Record World (S : Type) : Type := {
  store : S;
  trace : list Event
}.
Arguments store {S} _.
Arguments trace {S} _.

(** State monad over the world. *)
Definition M (S A : Type) : Type := World S -> A * World S.

Definition ret {S A} (a : A) : M S A := fun w => (a, w).

Definition bind {S A B} (m : M S A) (k : A -> M S B) : M S B :=
  fun w => let (a, w') := m w in k a w'.

Declare Scope js_scope.
Delimit Scope js_scope with js.
Notation "x <- m ;; k" := (bind m (fun x => k))
  (at level 100, m at next level, right associativity) : js_scope.
Notation "m ;; k" := (bind m (fun _ => k))
  (at level 100, right associativity) : js_scope.
Local Open Scope js_scope.

Definition emit {S} (e : Event) : M S unit :=
  fun w => (tt, {| store := store w; trace := trace w ++ [e] |}).

Module Log.
Definition verbose {S} (module msg : string) : M S unit :=
  emit (Log LogService.Verbose module msg).
Definition info {S} (module msg : string) : M S unit :=
  emit (Log LogService.Info module msg).
Definition warn {S} (module msg : string) : M S unit :=
  emit (Log LogService.Warn module msg).
End Log.

(** [Promise.reject(r)], [Promise.resolve()], and the two forms of [then]
    used by the service. With one handler a rejection passes through; with
    two, the second handles a rejection of the promise itself, and never a
    rejection produced by the first handler. *)
Definition reject {S A} (r : JS.reason) : M S (Promise A) := ret (Rejected r).
Definition resolve {S} : M S (Promise unit) := ret (Resolved tt).

Definition then1 {S A B} (p : Promise A) (onFulfilled : A -> M S (Promise B))
  : M S (Promise B) :=
  match p with
  | Resolved v => onFulfilled v
  | Rejected r => ret (Rejected r)
  end.

Definition then2 {S A B} (p : Promise A) (onFulfilled : A -> M S (Promise B))
    (onRejected : JS.reason -> M S (Promise B)) : M S (Promise B) :=
  match p with
  | Resolved v => onFulfilled v
  | Rejected r => onRejected r
  end.

(** ** The webhook store, as the service sees it *)

Module WebhookStore.

(** [require("../storage/WebhookStore")]: three operations, each of which
    settles to a value or to a rejection and may change the store. *)
Record t (S Webhook Deleted : Type) : Type := {
  createWebhook : string -> string -> S -> Promise Webhook * S;
  listWebhooks : string -> S -> Promise (list Webhook) * S;
  deleteWebhook : string -> string -> S -> Promise Deleted * S
}.
Arguments createWebhook {S Webhook Deleted} _ _ _ _.
Arguments listWebhooks {S Webhook Deleted} _ _ _.
Arguments deleteWebhook {S Webhook Deleted} _ _ _ _.

End WebhookStore.

(** A call into the store: recorded in the trace, then run on the store. *)
Definition callStore {S A} (e : Event) (op : S -> Promise A * S) : M S (Promise A) :=
  fun w =>
    let (p, s') := op (store w) in
    (p, {| store := s'; trace := trace w ++ [e] |}).

(** A call of the room-state reader: recorded in the trace. *)
Definition callGetStateEvent {S} (intent : Intent) (roomId eventType stateKey : string)
  : M S (Promise (option PowerLevels)) :=
  emit (ReadStateEvent roomId eventType stateKey) ;;
  ret (getStateEvent intent roomId eventType stateKey).

(** ** The service *)

Module ProvisioningService.

(** The fields of the instance: the message set by the constructor and the
    intent, absent until [setClient] has run. *)
Record t : Type := {
  PERMISSION_ERROR_MESSAGE : string;
  _intent : option Intent
}.

Definition constructor : t :=
  {| PERMISSION_ERROR_MESSAGE :=
       "User does not have permission to manage webhooks in this room";
     _intent := None |}.

Section Operations.

Context {S Webhook Deleted : Type}.
Variable WebhookStore : WebhookStore.t S Webhook Deleted.

Definition setClient (this : t) (intent : Intent) : M S t :=
  Log.verbose "ProvisioningService"
    ("Received intent. Using account " +:+ credentials_userId intent) ;;
  ret {| PERMISSION_ERROR_MESSAGE := PERMISSION_ERROR_MESSAGE this;
         _intent := Some intent |}.

(** Lines 75 to 79: the local [powerLevel] once its two fallbacks have
    run. *)
Definition powerLevel (powerLevels : PowerLevels) (userId : string) : JS.value :=
  let userPowerLevels := default ∅ (users powerLevels) in
  let powerLevel := JS.get userPowerLevels userId in
  let powerLevel :=
    if JS.not powerLevel then JS.prop (users_default powerLevels) else powerLevel in
  let powerLevel :=
    if JS.not powerLevel then JS.number 0 else powerLevel in
  powerLevel.

Definition hasPermission (this : t) (userId roomId : string) : M S (Promise unit) :=
  Log.verbose "ProvisioningService"
    ("Checking permission for " +:+ userId +:+ " in " +:+ roomId) ;;
  match _intent this with
  | None =>
      Log.warn "ProvisioningService"
        ("Unable to check permission for " +:+ userId +:+ " in " +:+ roomId
         +:+ " because there is no Intent assigned to this service") ;;
      reject JS.no_reason
  | Some intent =>
      p <- callGetStateEvent intent roomId "m.room.power_levels" "" ;;
      then1 p (fun powerLevels =>
        match powerLevels with
        | None =>
            Log.warn "ProvisioningService"
              ("Unable to check permission for " +:+ userId +:+ " in " +:+ roomId
               +:+ " because there is no powerlevel information in the room") ;;
            reject JS.no_reason
        | Some powerLevels =>
            let powerLevel := powerLevel powerLevels userId in
            let statePowerLevel := JS.prop (state_default powerLevels) in
            if JS.not statePowerLevel then
              Log.warn "ProvisioningService"
                ("Unable to check permission for " +:+ userId +:+ " in " +:+ roomId
                 +:+ " because the powerlevel requirement is missing for state_default") ;;
              reject JS.no_reason
            else
              let hasPermission := JS.le statePowerLevel powerLevel in
              Log.verbose "ProvisioningService"
                ("User " +:+ userId +:+ " in room " +:+ roomId
                 +:+ " has permission? " +:+ JS.boolToString hasPermission
                 +:+ " (required powerlevel = " +:+ JS.toString statePowerLevel
                 +:+ ", user powerlevel = " +:+ JS.toString powerLevel +:+ ")") ;;
              if hasPermission then resolve else reject JS.no_reason
        end)
  end.

Definition createWebhook (this : t) (roomId userId : string) : M S (Promise Webhook) :=
  Log.info "ProvisioningService"
    ("Processing create hook request for " +:+ roomId +:+ " by " +:+ userId) ;;
  p <- hasPermission this userId roomId ;;
  then2 p
    (fun _ => callStore (StoreCreateWebhook roomId userId)
                (WebhookStore.createWebhook WebhookStore roomId userId))
    (fun _ => reject (JS.message (PERMISSION_ERROR_MESSAGE this))).

Definition getWebhooks (this : t) (roomId userId : string)
  : M S (Promise (list Webhook)) :=
  Log.info "ProvisioningService"
    ("Processing list hooks request for " +:+ roomId +:+ " by " +:+ userId) ;;
  p <- hasPermission this userId roomId ;;
  then2 p
    (fun _ => callStore (StoreListWebhooks roomId)
                (WebhookStore.listWebhooks WebhookStore roomId))
    (fun _ => reject (JS.message (PERMISSION_ERROR_MESSAGE this))).

Definition deleteWebhook (this : t) (roomId userId hookId : string)
  : M S (Promise Deleted) :=
  Log.info "ProvisioningService"
    ("Processing delete hook (" +:+ hookId +:+ ") request for " +:+ roomId
     +:+ " by " +:+ userId) ;;
  p <- hasPermission this userId roomId ;;
  then2 p
    (fun _ => callStore (StoreDeleteWebhook roomId hookId)
                (WebhookStore.deleteWebhook WebhookStore roomId hookId))
    (fun _ => reject (JS.message (PERMISSION_ERROR_MESSAGE this))).

(** The shape the three operations share: log, check, then either the
    store call or the permission error. Each operation is an instance
    of it (see [createWebhook_gated] and its siblings). *)
Definition gated {A} (this : t) (line userId roomId : string) (call : Event)
    (op : S -> Promise A * S) : M S (Promise A) :=
  Log.info "ProvisioningService" line ;;
  p <- hasPermission this userId roomId ;;
  then2 p
    (fun _ => callStore call op)
    (fun _ => reject (JS.message (PERMISSION_ERROR_MESSAGE this))).

(** The four ways in which the check itself denies a request. *)
Inductive AuthFailure (this : t) (userId roomId : string) : Prop :=
| NoSession :
    _intent this = None ->
    AuthFailure this userId roomId
| NoPowerLevels intent :
    _intent this = Some intent ->
    getStateEvent intent roomId "m.room.power_levels" "" = Resolved None ->
    AuthFailure this userId roomId
| MissingStateDefault intent powerLevels :
    _intent this = Some intent ->
    getStateEvent intent roomId "m.room.power_levels" "" = Resolved (Some powerLevels) ->
    state_default powerLevels = None ->
    AuthFailure this userId roomId
| InsufficientLevel intent powerLevels required level :
    _intent this = Some intent ->
    getStateEvent intent roomId "m.room.power_levels" "" = Resolved (Some powerLevels) ->
    state_default powerLevels = Some required ->
    powerLevel powerLevels userId = JS.number level ->
    level < required ->
    AuthFailure this userId roomId.

End Operations.

(** The instances a program can hold: the constructed one, with
    [setClient] called any number of times. *)
Inductive reachable : t -> Prop :=
| reachable_constructor : reachable constructor
| reachable_setClient {S} this intent (w : World S) :
    reachable this -> reachable (fst (setClient this intent w)).

End ProvisioningService.

(** ** What a call leaves behind *)

Definition quiet (e : Event) : bool := negb (isStoreCall e).

Definition silent (e : Event) : bool := negb (isRead e) && negb (isStoreCall e).

(** From [w] to [w']: the store is as it was, and the trace has grown by
    events that all satisfy [allowed]. *)
Definition leaves {S} (allowed : Event -> bool) (w w' : World S) : Prop :=
  store w' = store w
  /\ exists evs, trace w' = trace w ++ evs /\ forallb allowed evs = true.

(** The store was not called and is unchanged. *)
Definition storeUntouched {S} (w w' : World S) : Prop := leaves quiet w w'.

(** Neither the room state was read nor the store called. *)
Definition nothingCalled {S} (w w' : World S) : Prop := leaves silent w w'.

(** The events a run from [w] to [w'] has added to the trace. *)
Definition since {S} (w w' : World S) : list Event :=
  drop (length (trace w)) (trace w').

(** [setClient] called with each intent of a list, in turn. *)
Fixpoint setClients {S} (this : ProvisioningService.t) (intents : list Intent)
  : M S ProvisioningService.t :=
  match intents with
  | [] => ret this
  | intent :: intents =>
      this' <- ProvisioningService.setClient this intent ;;
      setClients this' intents
  end.

(** ** Test doubles: a homeserver, an in-memory store and a failing store *)

Module Fake.

(** A homeserver holding the power levels of some rooms; a room without
    them resolves to nothing, any other state event is not found. *)
Definition homeserver (rooms : gmap string PowerLevels) : Intent :=
  {| credentials_userId := "@_webhook:t2bot.io";
     getStateEvent := fun roomId eventType stateKey =>
       if bool_decide (eventType = "m.room.power_levels" ∧ stateKey = "")
       then Resolved (rooms !! roomId)
       else Rejected (JS.error "M_NOT_FOUND") |}.

Record Webhook : Type := {
  id : string;
  roomId : string;
  userId : string
}.

Definition inRoom (room : string) (h : Webhook) : bool :=
  bool_decide (roomId h = room).

Definition isHook (room hook : string) (h : Webhook) : bool :=
  bool_decide (roomId h = room) && bool_decide (id h = hook).

(** Hooks are numbered in creation order; deleting an unknown hook is an
    error of the store. *)
Definition memoryStore : WebhookStore.t (list Webhook) Webhook unit :=
  {| WebhookStore.createWebhook := fun room user s =>
       let h := {| id := pretty (length s); roomId := room; userId := user |} in
       (Resolved h, s ++ [h]);
     WebhookStore.listWebhooks := fun room s =>
       (Resolved (List.filter (inRoom room) s), s);
     WebhookStore.deleteWebhook := fun room hook s =>
       if existsb (isHook room hook) s
       then (Resolved tt, List.filter (fun h => negb (isHook room hook h)) s)
       else (Rejected (JS.error "hook not found"), s) |}.

(** A store whose every operation fails. *)
Definition brokenStore : WebhookStore.t unit Webhook unit :=
  {| WebhookStore.createWebhook := fun _ _ s => (Rejected (JS.error "EIO"), s);
     WebhookStore.listWebhooks := fun _ s => (Rejected (JS.error "EIO"), s);
     WebhookStore.deleteWebhook := fun _ _ s => (Rejected (JS.error "EIO"), s) |}.

Definition alice : string := "@alice:example.org".
Definition room : string := "!room:example.org".

Definition world {S} (s : S) : World S := {| store := s; trace := [] |}.

(** The service once [setClient] has bound it to a homeserver that knows
    one room. *)
Definition service (powerLevels : PowerLevels) : ProvisioningService.t :=
  fst (ProvisioningService.setClient ProvisioningService.constructor
         (homeserver {[ room := powerLevels ]}) (world tt)).

(** Power levels of a room in which [alice], at 10, is below the 50 that
    state changes need, ... *)
Definition lowLevels : PowerLevels :=
  {| users := Some {[ alice := 10 ]};
     users_default := None;
     state_default := Some 50 |}.

(** ... in which she reaches it, ... *)
Definition highLevels : PowerLevels :=
  {| users := Some {[ alice := 50 ]};
     users_default := Some 10;
     state_default := Some 50 |}.

(** ... which has no [state_default], ... *)
Definition noStateDefault : PowerLevels :=
  {| users := Some {[ alice := 100 ]};
     users_default := Some 10;
     state_default := None |}.

(** ... and which has no [users]. *)
Definition noUsers : PowerLevels :=
  {| users := None;
     users_default := Some 60;
     state_default := Some 50 |}.

(** A homeserver that cannot be reached: every read fails. *)
Definition offline : Intent :=
  {| credentials_userId := "@_webhook:t2bot.io";
     getStateEvent := fun _ _ _ => Rejected (JS.error "ECONNREFUSED") |}.

Definition bob : string := "@bob:example.org".

(** [lowLevels] with a second, more powerful user. *)
Definition twoUsers : PowerLevels :=
  {| users := Some {[ alice := 10; bob := 100 ]};
     users_default := None;
     state_default := Some 50 |}.

(** A room in which [alice] is listed at 0 and unlisted users are at 50. *)
Definition listedAtZero : PowerLevels :=
  {| users := Some {[ alice := 0 ]};
     users_default := Some 50;
     state_default := Some 50 |}.

End Fake.

(** Two outcomes that a caller can tell apart. *)
Definition distinguishable {A} (p q : Promise A) : Prop := p <> q.


(** ** Properties *)

Import ProvisioningService.

Local Opaque String.append.

(** Unfolds one run of the service down to the outcome and the world. *)
Ltac run :=
  unfold createWebhook, getWebhooks, deleteWebhook, hasPermission, setClient,
    callGetStateEvent, callStore, then1, then2, reject, resolve,
    Log.verbose, Log.info, Log.warn, emit, bind, ret;
  simpl.

Ltac split_run :=
  repeat match goal with
  | |- context [match ?x with _ => _ end] => destruct x eqn:?; simpl
  end.

Section Fallback.

Implicit Types (powerLevels : PowerLevels) (userId : string).

Lemma not_number n : JS.not (JS.number n) = bool_decide (n = 0).
Proof.
  unfold JS.not, JS.truthy. rewrite negb_involutive.
  case_bool_decide; [by apply Z.eqb_eq | by apply Z.eqb_neq].
Qed.

Lemma not_nonzero n : n <> 0 -> JS.not (JS.number n) = false.
Proof. intros. by rewrite not_number, bool_decide_eq_false_2. Qed.

(** The local [powerLevel] is never undefined: it is a number, or what the
    user's name finds in the prototype. *)
Lemma powerLevel_defined powerLevels userId :
  (exists level, powerLevel powerLevels userId = JS.number level)
  \/ (exists text, powerLevel powerLevels userId = JS.object text).
Proof.
  unfold powerLevel.
  destruct (JS.get _ userId) as [| n | text] eqn:Eg; simpl.
  - left. destruct (users_default powerLevels) as [[] |]; by eexists.
  - left. rewrite not_number. case_bool_decide.
    + destruct (users_default powerLevels) as [[] |]; by eexists.
    + rewrite not_nonzero by done. by eexists.
  - right. by eexists.
Qed.

(** A non-zero explicit level is the effective one. *)
Lemma powerLevel_explicit powerLevels userId m n :
  users powerLevels = Some m -> m !! userId = Some n -> n <> 0 ->
  powerLevel powerLevels userId = JS.number n.
Proof.
  intros Hm Hn Hz. unfold powerLevel, JS.get. rewrite Hm. simpl. rewrite Hn.
  by rewrite !not_nonzero.
Qed.

(** Without an explicit level, a non-zero [users_default] is the effective
    one. *)
Lemma powerLevel_users_default powerLevels userId d :
  default ∅ (users powerLevels) !! userId = None ->
  JS.Object_prototype userId = None ->
  users_default powerLevels = Some d -> d <> 0 ->
  powerLevel powerLevels userId = JS.number d.
Proof.
  intros Hn Hp Hd Hz. unfold powerLevel, JS.get. rewrite Hn, Hp, Hd. simpl.
  by rewrite !not_nonzero.
Qed.

(** Without either, it is 0. *)
Lemma powerLevel_zero powerLevels userId :
  default ∅ (users powerLevels) !! userId = None ->
  JS.Object_prototype userId = None ->
  users_default powerLevels = None ->
  powerLevel powerLevels userId = JS.number 0.
Proof.
  intros Hn Hp Hd. unfold powerLevel, JS.get. by rewrite Hn, Hp, Hd.
Qed.

(** Without an entry of its own, a name that the prototype knows finds the
    inherited value, and [users_default] is not consulted. *)
Lemma powerLevel_inherited powerLevels userId text :
  default ∅ (users powerLevels) !! userId = None ->
  JS.Object_prototype userId = Some text ->
  powerLevel powerLevels userId = JS.object text.
Proof.
  intros Hn Hp. unfold powerLevel, JS.get. by rewrite Hn, Hp.
Qed.

(** An explicit level of 0 is replaced by [users_default]. *)
Lemma powerLevel_explicit_zero powerLevels userId m d :
  users powerLevels = Some m -> m !! userId = Some 0 ->
  users_default powerLevels = Some d ->
  powerLevel powerLevels userId = JS.number d.
Proof.
  intros Hm Hn Hd. unfold powerLevel, JS.get. rewrite Hm. simpl.
  rewrite Hn, Hd. simpl. rewrite not_number.
  case_bool_decide; by subst.
Qed.

End Fallback.

Section Runs.

Context {S Webhook Deleted : Type}.
Variable Store : WebhookStore.t S Webhook Deleted.
Implicit Types (this : t) (w : World S) (userId roomId hookId : string).

Lemma reachable_message this :
  reachable this ->
  PERMISSION_ERROR_MESSAGE this
  = "User does not have permission to manage webhooks in this room".
Proof. induction 1; done. Qed.

(** The check only reads: it leaves the store alone and adds no store call
    to the trace. *)
Lemma hasPermission_world this userId roomId w :
  exists evs,
    snd (hasPermission this userId roomId w)
    = {| store := store w; trace := trace w ++ evs |}
    /\ forallb quiet evs = true.
Proof.
  run. split_run; rewrite <- ?app_assoc; simpl; by eexists.
Qed.

(** Its outcome does not depend on the world it is run in. *)
Lemma hasPermission_outcome this userId roomId w w' :
  fst (hasPermission this userId roomId w)
  = fst (hasPermission this userId roomId w').
Proof. run. by split_run. Qed.

Lemma hasPermission_unbound this userId roomId w :
  _intent this = None ->
  exists evs,
    hasPermission this userId roomId w
    = (Rejected JS.no_reason, {| store := store w; trace := trace w ++ evs |})
    /\ forallb isLog evs = true.
Proof.
  intros H. run. rewrite H. simpl. rewrite <- app_assoc. by eexists.
Qed.

(** With a session and a snapshot, the outcome is the comparison, guarded
    by the truthiness of [state_default]. *)
Lemma hasPermission_snapshot this userId roomId w intent powerLevels :
  _intent this = Some intent ->
  getStateEvent intent roomId "m.room.power_levels" "" = Resolved (Some powerLevels) ->
  fst (hasPermission this userId roomId w)
  = if JS.truthy (JS.prop (state_default powerLevels))
       && JS.le (JS.prop (state_default powerLevels)) (powerLevel powerLevels userId)
    then Resolved tt else Rejected JS.no_reason.
Proof.
  intros Hi Hr. run. rewrite Hi. simpl. rewrite Hr. simpl.
  unfold JS.not. destruct (JS.truthy _); simpl; [| done].
  by destruct (JS.le _ _).
Qed.

Lemma authFailure_rejected this userId roomId w :
  AuthFailure this userId roomId ->
  fst (hasPermission this userId roomId w) = Rejected JS.no_reason.
Proof.
  intros [H | i Hi Hr | i pl Hi Hr Hs | i pl s l Hi Hr Hs Hl Hlt].
  - destruct (hasPermission_unbound this userId roomId w H) as (evs & -> & _).
    done.
  - run. rewrite Hi. simpl. by rewrite Hr.
  - rewrite (hasPermission_snapshot _ _ _ _ _ _ Hi Hr), Hs. done.
  - rewrite (hasPermission_snapshot _ _ _ _ _ _ Hi Hr), Hs, Hl. simpl.
    replace (s <=? l) with false by (symmetry; apply Z.leb_gt; lia).
    by rewrite andb_false_r.
Qed.

Section Gate.

Context {A : Type}.
Variables (this : t) (line userId roomId : string) (call : Event).
Variable op : S -> Promise A * S.

Lemma gated_run w :
  gated this line userId roomId call op w
  = let w1 := {| store := store w;
                 trace := trace w ++ [Log LogService.Info "ProvisioningService" line] |} in
    match hasPermission this userId roomId w1 with
    | (Resolved _, w2) => callStore call op w2
    | (Rejected _, w2) => (Rejected (JS.message (PERMISSION_ERROR_MESSAGE this)), w2)
    end.
Proof.
  unfold gated, bind, Log.info, emit. simpl.
  by destruct (hasPermission _ _ _ _) as [[] ?].
Qed.

(** A denied request: the fixed message, the store as it was, and
    nothing but what the check itself logged and read. *)
Lemma gated_rejected w :
  Promise.isRejected (fst (hasPermission this userId roomId w)) = true ->
  fst (gated this line userId roomId call op w)
    = Rejected (JS.message (PERMISSION_ERROR_MESSAGE this))
  /\ storeUntouched w (snd (gated this line userId roomId call op w)).
Proof.
  intros Hrej. rewrite gated_run. simpl.
  set (w1 := {| store := store w; trace := trace w ++ [_] |}).
  rewrite (hasPermission_outcome _ _ _ w w1) in Hrej.
  destruct (hasPermission_world this userId roomId w1) as (evs & Hw & Hq).
  destruct (hasPermission this userId roomId w1) as [[v | r] w2];
    simpl in *; [done |].
  subst w2. simpl. split; [done |]. split; [done |].
  exists ([Log LogService.Info "ProvisioningService" line] ++ evs).
  by rewrite app_assoc.
Qed.

(** A permitted request: the store call, on the store as it was, and
    its outcome as it is. *)
Lemma gated_resolved w :
  Promise.isResolved (fst (hasPermission this userId roomId w)) = true ->
  fst (gated this line userId roomId call op w) = fst (op (store w))
  /\ store (snd (gated this line userId roomId call op w)) = snd (op (store w))
  /\ exists evs,
      trace (snd (gated this line userId roomId call op w))
      = trace w ++ evs ++ [call]
      /\ forallb quiet evs = true.
Proof.
  intros Hres. rewrite gated_run. simpl.
  set (w1 := {| store := store w; trace := trace w ++ [_] |}).
  rewrite (hasPermission_outcome _ _ _ w w1) in Hres.
  destruct (hasPermission_world this userId roomId w1) as (evs & Hw & Hq).
  destruct (hasPermission this userId roomId w1) as [[v | r] w2];
    simpl in *; [| done].
  subst w2. unfold callStore. simpl. destruct (op (store w)) as [p s'].
  simpl. split; [done |]. split; [done |].
  exists ([Log LogService.Info "ProvisioningService" line] ++ evs).
  by rewrite <- !app_assoc.
Qed.

(** Without a session: as [gated_rejected], and the room state is not
    read either. *)
Lemma gated_unbound w :
  _intent this = None ->
  fst (gated this line userId roomId call op w)
    = Rejected (JS.message (PERMISSION_ERROR_MESSAGE this))
  /\ nothingCalled w (snd (gated this line userId roomId call op w)).
Proof.
  intros Hn. rewrite gated_run. simpl.
  set (w1 := {| store := store w; trace := trace w ++ [_] |}).
  destruct (hasPermission_unbound this userId roomId w1 Hn) as (evs & -> & Hl).
  simpl. split; [done |]. split; [done |].
  exists ([Log LogService.Info "ProvisioningService" line] ++ evs).
  rewrite app_assoc. split; [done |]. simpl.
  clear -Hl. induction evs as [| [] evs IH]; simpl in *; auto; done.
Qed.

End Gate.

Lemma createWebhook_gated this roomId userId :
  createWebhook Store this roomId userId
  = gated this
      ("Processing create hook request for " +:+ roomId +:+ " by " +:+ userId)
      userId roomId (StoreCreateWebhook roomId userId)
      (WebhookStore.createWebhook Store roomId userId).
Proof. reflexivity. Qed.

Lemma getWebhooks_gated this roomId userId :
  getWebhooks Store this roomId userId
  = gated this
      ("Processing list hooks request for " +:+ roomId +:+ " by " +:+ userId)
      userId roomId (StoreListWebhooks roomId)
      (WebhookStore.listWebhooks Store roomId).
Proof. reflexivity. Qed.

Lemma deleteWebhook_gated this roomId userId hookId :
  deleteWebhook Store this roomId userId hookId
  = gated this
      ("Processing delete hook (" +:+ hookId +:+ ") request for " +:+ roomId
       +:+ " by " +:+ userId)
      userId roomId (StoreDeleteWebhook roomId hookId)
      (WebhookStore.deleteWebhook Store roomId hookId).
Proof. reflexivity. Qed.

End Runs.

(** ** The permission check *)

Section Decision.

Context {S : Type}.
Implicit Types (this : t) (w : World S) (userId roomId : string).

(** With a non-zero [state_default], the check succeeds exactly when the
    effective level reaches it, and a denial carries no reason. *)
Lemma hasPermission_decision this userId roomId w intent powerLevels required level :
  _intent this = Some intent ->
  getStateEvent intent roomId "m.room.power_levels" "" = Resolved (Some powerLevels) ->
  state_default powerLevels = Some required ->
  required <> 0 ->
  powerLevel powerLevels userId = JS.number level ->
  (fst (hasPermission this userId roomId w) = Resolved tt <-> required <= level)
  /\ (level < required ->
      fst (hasPermission this userId roomId w) = Rejected JS.no_reason).
Proof.
  intros Hi Hr Hs Hz Hl.
  rewrite (hasPermission_snapshot _ _ _ _ _ _ Hi Hr), Hs, Hl. simpl.
  replace (required =? 0) with false by (symmetry; by apply Z.eqb_neq).
  simpl. destruct (Z.leb_spec required level) as [Hle | Hlt].
  - split; [done | lia].
  - split; [| done]. split; [done | lia].
Qed.

(** A [state_default] of 0 is taken for a missing one: the check fails
    whatever the user's level. *)
Lemma hasPermission_state_default_zero this userId roomId w intent powerLevels :
  _intent this = Some intent ->
  getStateEvent intent roomId "m.room.power_levels" "" = Resolved (Some powerLevels) ->
  state_default powerLevels = Some 0 ->
  fst (hasPermission this userId roomId w) = Rejected JS.no_reason.
Proof.
  intros Hi Hr Hs. by rewrite (hasPermission_snapshot _ _ _ _ _ _ Hi Hr), Hs.
Qed.

End Decision.

(** C1. A snapshot that contains [state_default], here with the value 0, and
    a user whose effective level, 100, is not below it: the check should
    succeed, and it fails as if [state_default] were missing. *)
Theorem hasPermission_denies_at_state_default_zero :
  let powerLevels :=
    {| users := Some {[ Fake.alice := 100 ]};
       users_default := None;
       state_default := Some 0 |} in
  powerLevel powerLevels Fake.alice = JS.number 100
  /\ JS.le (JS.prop (state_default powerLevels)) (powerLevel powerLevels Fake.alice) = true
  /\ hasPermission (Fake.service powerLevels) Fake.alice Fake.room (Fake.world tt)
     = (Rejected JS.no_reason,
        {| store := tt;
           trace :=
             [Log LogService.Verbose "ProvisioningService"
                "Checking permission for @alice:example.org in !room:example.org";
              ReadStateEvent "!room:example.org" "m.room.power_levels" "";
              Log LogService.Warn "ProvisioningService"
                "Unable to check permission for @alice:example.org in !room:example.org because the powerlevel requirement is missing for state_default"] |}).
Proof. vm_compute. done. Qed.

(** C2. An explicit level of 0 with a [users_default] of 50: the effective
    level should be the explicit 0, and it is 50, which lets the user pass
    a [state_default] of 50. *)
Theorem powerLevel_explicit_zero_falls_through :
  let powerLevels :=
    {| users := Some {[ Fake.alice := 0 ]};
       users_default := Some 50;
       state_default := Some 50 |} in
  default ∅ (users powerLevels) !! Fake.alice = Some 0
  /\ powerLevel powerLevels Fake.alice = JS.number 50
  /\ fst (hasPermission (Fake.service powerLevels) Fake.alice Fake.room (Fake.world tt))
     = Resolved tt.
Proof. vm_compute. done. Qed.

(** C3. The three test vectors: explicit 50 against a [state_default] of 50
    is permitted; a user absent from [users] with a [users_default] of 10
    is denied against 50; a user absent from [users], without
    [users_default], against a [state_default] of 0 should be permitted and
    is denied. *)
Theorem hasPermission_test_vectors :
  fst (hasPermission
         (Fake.service {| users := Some {[ Fake.alice := 50 ]};
                          users_default := Some 10;
                          state_default := Some 50 |})
         Fake.alice Fake.room (Fake.world tt)) = Resolved tt
  /\ fst (hasPermission
            (Fake.service {| users := Some ∅;
                             users_default := Some 10;
                             state_default := Some 50 |})
            Fake.alice Fake.room (Fake.world tt)) = Rejected JS.no_reason
  /\ fst (hasPermission
            (Fake.service {| users := Some ∅;
                             users_default := None;
                             state_default := Some 0 |})
            Fake.alice Fake.room (Fake.world tt)) = Rejected JS.no_reason.
Proof. vm_compute. done. Qed.

(** ** The three operations *)

Section Operations.

Context {S Webhook Deleted : Type}.
Variable Store : WebhookStore.t S Webhook Deleted.
Implicit Types (this : t) (w : World S) (userId roomId hookId : string).

(** A failed check makes each operation reject with the message held by
    the instance. *)
Lemma operations_rejected this roomId userId hookId w :
  Promise.isRejected (fst (hasPermission this userId roomId w)) = true ->
  fst (createWebhook Store this roomId userId w)
    = Rejected (JS.message (PERMISSION_ERROR_MESSAGE this))
  /\ fst (getWebhooks Store this roomId userId w)
    = Rejected (JS.message (PERMISSION_ERROR_MESSAGE this))
  /\ fst (deleteWebhook Store this roomId userId hookId w)
    = Rejected (JS.message (PERMISSION_ERROR_MESSAGE this)).
Proof.
  intros Hrej.
  rewrite createWebhook_gated, getWebhooks_gated, deleteWebhook_gated.
  repeat split; by apply gated_rejected.
Qed.

(** C4. Whenever the check fails, whatever made it fail (each of the four
    causes of [AuthFailure] does, by [authFailure_rejected], and so does a
    failed read of the room state), each of the three operations rejects
    with the one fixed message. *)
Theorem permission_error_is_uniform this roomId userId hookId w :
  reachable this ->
  Promise.isRejected (fst (hasPermission this userId roomId w)) = true ->
  fst (createWebhook Store this roomId userId w)
    = Rejected (JS.message "User does not have permission to manage webhooks in this room")
  /\ fst (getWebhooks Store this roomId userId w)
    = Rejected (JS.message "User does not have permission to manage webhooks in this room")
  /\ fst (deleteWebhook Store this roomId userId hookId w)
    = Rejected (JS.message "User does not have permission to manage webhooks in this room").
Proof.
  intros Hreach Hrej. rewrite <- (reachable_message this Hreach).
  by apply operations_rejected.
Qed.

(** C5. If the check fails, none of the three operations calls the store,
    and the store is as it was before the call. *)
Theorem denied_request_leaves_store this roomId userId hookId w :
  Promise.isRejected (fst (hasPermission this userId roomId w)) = true ->
  storeUntouched w (snd (createWebhook Store this roomId userId w))
  /\ storeUntouched w (snd (getWebhooks Store this roomId userId w))
  /\ storeUntouched w (snd (deleteWebhook Store this roomId userId hookId w)).
Proof.
  intros Hrej.
  rewrite createWebhook_gated, getWebhooks_gated, deleteWebhook_gated.
  repeat split; by apply gated_rejected.
Qed.

(** C6. Without a session, each of the three operations rejects, and has
    neither read the room state nor called the store. *)
Theorem unbound_service_calls_nothing this roomId userId hookId w :
  _intent this = None ->
  (Promise.isRejected (fst (createWebhook Store this roomId userId w)) = true
   /\ nothingCalled w (snd (createWebhook Store this roomId userId w)))
  /\ (Promise.isRejected (fst (getWebhooks Store this roomId userId w)) = true
      /\ nothingCalled w (snd (getWebhooks Store this roomId userId w)))
  /\ (Promise.isRejected (fst (deleteWebhook Store this roomId userId hookId w)) = true
      /\ nothingCalled w (snd (deleteWebhook Store this roomId userId hookId w))).
Proof.
  intros Hn.
  rewrite createWebhook_gated, getWebhooks_gated, deleteWebhook_gated.
  repeat split;
    first [ by apply gated_unbound
          | by (erewrite (proj1 (gated_unbound _ _ _ _ _ _ _ Hn))) ].
Qed.

(** C7, as amended. Without a session the check fails on a test of its
    own, before any read of the room state; its outcome is the same
    rejection without a reason as for an insufficient power level, and each
    of the three operations rejects with the one fixed message in the one
    case as in the other. *)
Theorem no_session_outcome_as_insufficient_level
    this this' roomId userId hookId w w' intent powerLevels required level :
  reachable this -> reachable this' ->
  _intent this = None ->
  _intent this' = Some intent ->
  getStateEvent intent roomId "m.room.power_levels" "" = Resolved (Some powerLevels) ->
  state_default powerLevels = Some required ->
  powerLevel powerLevels userId = JS.number level ->
  level < required ->
  nothingCalled w (snd (hasPermission this userId roomId w))
  /\ fst (hasPermission this userId roomId w) = Rejected JS.no_reason
  /\ fst (hasPermission this' userId roomId w') = Rejected JS.no_reason
  /\ (fst (createWebhook Store this roomId userId w)
        = Rejected (JS.message "User does not have permission to manage webhooks in this room")
      /\ fst (createWebhook Store this' roomId userId w')
        = Rejected (JS.message "User does not have permission to manage webhooks in this room"))
  /\ (fst (getWebhooks Store this roomId userId w)
        = Rejected (JS.message "User does not have permission to manage webhooks in this room")
      /\ fst (getWebhooks Store this' roomId userId w')
        = Rejected (JS.message "User does not have permission to manage webhooks in this room"))
  /\ (fst (deleteWebhook Store this roomId userId hookId w)
        = Rejected (JS.message "User does not have permission to manage webhooks in this room")
      /\ fst (deleteWebhook Store this' roomId userId hookId w')
        = Rejected (JS.message "User does not have permission to manage webhooks in this room")).
Proof.
  intros Hreach Hreach' Hn Hi Hr Hs Hl Hlt.
  assert (Hrej : fst (hasPermission this userId roomId w) = Rejected JS.no_reason)
    by (apply authFailure_rejected; by constructor 1).
  assert (Hrej' : fst (hasPermission this' userId roomId w') = Rejected JS.no_reason)
    by (apply authFailure_rejected; by econstructor 4).
  split.
  { destruct (hasPermission_unbound this userId roomId w Hn) as (evs & -> & Hl').
    split; [done |]. exists evs. split; [done |].
    clear -Hl'. induction evs as [| [] evs IH]; simpl in *; auto; done. }
  split; [done |]. split; [done |].
  destruct (operations_rejected this roomId userId hookId w)
    as (-> & -> & ->); [by rewrite Hrej |].
  destruct (operations_rejected this' roomId userId hookId w')
    as (-> & -> & ->); [by rewrite Hrej' |].
  by rewrite !reachable_message.
Qed.

(** C8. If the check succeeds and the store operation fails, the
    operation rejects with the store's own error. *)
Theorem store_error_propagates this roomId userId hookId w :
  Promise.isResolved (fst (hasPermission this userId roomId w)) = true ->
  (forall e,
      fst (WebhookStore.createWebhook Store roomId userId (store w)) = Rejected e ->
      fst (createWebhook Store this roomId userId w) = Rejected e)
  /\ (forall e,
      fst (WebhookStore.listWebhooks Store roomId (store w)) = Rejected e ->
      fst (getWebhooks Store this roomId userId w) = Rejected e)
  /\ (forall e,
      fst (WebhookStore.deleteWebhook Store roomId hookId (store w)) = Rejected e ->
      fst (deleteWebhook Store this roomId userId hookId w) = Rejected e).
Proof.
  intros Hres.
  rewrite createWebhook_gated, getWebhooks_gated, deleteWebhook_gated.
  repeat split; intros e <-; by apply gated_resolved.
Qed.

(** C9. A snapshot without [state_default]: the check fails, and each of
    the three operations rejects, with the fixed message. *)
Theorem missing_state_default_rejects
    this roomId userId hookId w intent powerLevels :
  reachable this ->
  _intent this = Some intent ->
  getStateEvent intent roomId "m.room.power_levels" "" = Resolved (Some powerLevels) ->
  state_default powerLevels = None ->
  fst (hasPermission this userId roomId w) = Rejected JS.no_reason
  /\ fst (createWebhook Store this roomId userId w)
    = Rejected (JS.message "User does not have permission to manage webhooks in this room")
  /\ fst (getWebhooks Store this roomId userId w)
    = Rejected (JS.message "User does not have permission to manage webhooks in this room")
  /\ fst (deleteWebhook Store this roomId userId hookId w)
    = Rejected (JS.message "User does not have permission to manage webhooks in this room").
Proof.
  intros Hreach Hi Hr Hs.
  assert (Hrej : fst (hasPermission this userId roomId w) = Rejected JS.no_reason)
    by (apply authFailure_rejected; by econstructor 3).
  split; [done |].
  rewrite <- (reachable_message this Hreach).
  apply operations_rejected. by rewrite Hrej.
Qed.

(** C10, as amended. A snapshot without [users] is read as one with an
    empty [users], for every user; and for every user whose name finds
    nothing in [Object.prototype] the effective level is [users_default], or
    0 without it, and the check runs to its decision on that level. *)
Theorem missing_users_is_empty_mapping powerLevels userId :
  users powerLevels = None ->
  powerLevel powerLevels userId
  = powerLevel {| users := Some ∅;
                  users_default := users_default powerLevels;
                  state_default := state_default powerLevels |} userId
  /\ (JS.Object_prototype userId = None ->
      powerLevel powerLevels userId
      = JS.number (default 0 (users_default powerLevels))
      /\ forall this roomId w intent,
          _intent this = Some intent ->
          getStateEvent intent roomId "m.room.power_levels" ""
            = Resolved (Some powerLevels) ->
          fst (hasPermission this userId roomId w)
          = if JS.truthy (JS.prop (state_default powerLevels))
               && JS.le (JS.prop (state_default powerLevels))
                    (JS.number (default 0 (users_default powerLevels)))
            then Resolved tt else Rejected JS.no_reason).
Proof.
  intros Hu. split.
  - unfold powerLevel. by rewrite Hu.
  - intros Hp.
    assert (Hlevel : powerLevel powerLevels userId
                     = JS.number (default 0 (users_default powerLevels))).
    { unfold powerLevel, JS.get. rewrite Hu. simpl. rewrite lookup_empty, Hp.
      destruct (users_default powerLevels) as [[] |]; done. }
    split; [done |].
    intros this roomId w intent Hi Hr.
    by rewrite (hasPermission_snapshot _ _ _ _ _ _ Hi Hr), Hlevel.
Qed.

End Operations.

(** ** The properties at concrete inputs *)

Lemma service_reachable powerLevels : reachable (Fake.service powerLevels).
Proof.
  exact (reachable_setClient constructor _ (Fake.world tt) reachable_constructor).
Defined.

Lemma permission_error_is_uniform_witness :
  let this := Fake.service Fake.lowLevels in
  let w := Fake.world [] in
  Promise.isRejected (fst (hasPermission this Fake.alice Fake.room w)) = true
  /\ fst (createWebhook Fake.memoryStore this Fake.room Fake.alice w)
     = Rejected (JS.message "User does not have permission to manage webhooks in this room")
  /\ fst (getWebhooks Fake.memoryStore this Fake.room Fake.alice w)
     = Rejected (JS.message "User does not have permission to manage webhooks in this room")
  /\ fst (deleteWebhook Fake.memoryStore this Fake.room Fake.alice "0" w)
     = Rejected (JS.message "User does not have permission to manage webhooks in this room").
Proof.
  intros this w.
  assert (Hrej : Promise.isRejected (fst (hasPermission this Fake.alice Fake.room w)) = true)
    by (vm_compute; reflexivity).
  split; [exact Hrej |].
  exact (permission_error_is_uniform Fake.memoryStore this Fake.room Fake.alice "0" w
           (service_reachable Fake.lowLevels) Hrej).
Defined.

Lemma denied_request_leaves_store_witness :
  let this := Fake.service Fake.lowLevels in
  let w := Fake.world [] in
  Promise.isRejected (fst (hasPermission this Fake.alice Fake.room w)) = true
  /\ storeUntouched w (snd (createWebhook Fake.memoryStore this Fake.room Fake.alice w))
  /\ storeUntouched w (snd (getWebhooks Fake.memoryStore this Fake.room Fake.alice w))
  /\ storeUntouched w (snd (deleteWebhook Fake.memoryStore this Fake.room Fake.alice "0" w)).
Proof.
  intros this w.
  assert (Hrej : Promise.isRejected (fst (hasPermission this Fake.alice Fake.room w)) = true)
    by (vm_compute; reflexivity).
  split; [exact Hrej |].
  exact (denied_request_leaves_store Fake.memoryStore this Fake.room Fake.alice "0" w Hrej).
Defined.

Lemma unbound_service_calls_nothing_witness :
  let w := Fake.world [] in
  _intent constructor = None
  /\ (Promise.isRejected
        (fst (createWebhook Fake.memoryStore constructor Fake.room Fake.alice w)) = true
      /\ nothingCalled w
           (snd (createWebhook Fake.memoryStore constructor Fake.room Fake.alice w)))
  /\ (Promise.isRejected
        (fst (getWebhooks Fake.memoryStore constructor Fake.room Fake.alice w)) = true
      /\ nothingCalled w
           (snd (getWebhooks Fake.memoryStore constructor Fake.room Fake.alice w)))
  /\ (Promise.isRejected
        (fst (deleteWebhook Fake.memoryStore constructor Fake.room Fake.alice "0" w)) = true
      /\ nothingCalled w
           (snd (deleteWebhook Fake.memoryStore constructor Fake.room Fake.alice "0" w))).
Proof.
  intros w. split; [reflexivity |].
  exact (unbound_service_calls_nothing Fake.memoryStore constructor Fake.room Fake.alice "0" w
           eq_refl).
Defined.

(** C7, as stated, at a concrete input: the service without a session and
    the service whose user, at 10, is below the required 50 settle to the
    same outcome, in the check and in each operation. *)
Lemma no_session_not_distinguishable :
  let unbound := constructor in
  let bound := Fake.service Fake.lowLevels in
  let w := Fake.world [] in
  (_intent unbound = None
   /\ powerLevel Fake.lowLevels Fake.alice = JS.number 10
   /\ state_default Fake.lowLevels = Some 50)
  /\ ~ (distinguishable
          (fst (hasPermission unbound Fake.alice Fake.room w))
          (fst (hasPermission bound Fake.alice Fake.room w))
        \/ distinguishable
             (fst (createWebhook Fake.memoryStore unbound Fake.room Fake.alice w))
             (fst (createWebhook Fake.memoryStore bound Fake.room Fake.alice w))
        \/ distinguishable
             (fst (getWebhooks Fake.memoryStore unbound Fake.room Fake.alice w))
             (fst (getWebhooks Fake.memoryStore bound Fake.room Fake.alice w))
        \/ distinguishable
             (fst (deleteWebhook Fake.memoryStore unbound Fake.room Fake.alice "0" w))
             (fst (deleteWebhook Fake.memoryStore bound Fake.room Fake.alice "0" w))).
Proof.
  intros unbound bound w. split; [by vm_compute |].
  unfold distinguishable. intros [H | [H | [H | H]]]; apply H; by vm_compute.
Qed.

Lemma no_session_outcome_as_insufficient_level_witness :
  let unbound := constructor in
  let bound := Fake.service Fake.lowLevels in
  let w := Fake.world [] in
  nothingCalled w (snd (hasPermission unbound Fake.alice Fake.room w))
  /\ fst (hasPermission unbound Fake.alice Fake.room w) = Rejected JS.no_reason
  /\ fst (hasPermission bound Fake.alice Fake.room w) = Rejected JS.no_reason
  /\ (fst (createWebhook Fake.memoryStore unbound Fake.room Fake.alice w)
        = Rejected (JS.message "User does not have permission to manage webhooks in this room")
      /\ fst (createWebhook Fake.memoryStore bound Fake.room Fake.alice w)
        = Rejected (JS.message "User does not have permission to manage webhooks in this room"))
  /\ (fst (getWebhooks Fake.memoryStore unbound Fake.room Fake.alice w)
        = Rejected (JS.message "User does not have permission to manage webhooks in this room")
      /\ fst (getWebhooks Fake.memoryStore bound Fake.room Fake.alice w)
        = Rejected (JS.message "User does not have permission to manage webhooks in this room"))
  /\ (fst (deleteWebhook Fake.memoryStore unbound Fake.room Fake.alice "0" w)
        = Rejected (JS.message "User does not have permission to manage webhooks in this room")
      /\ fst (deleteWebhook Fake.memoryStore bound Fake.room Fake.alice "0" w)
        = Rejected (JS.message "User does not have permission to manage webhooks in this room")).
Proof.
  intros unbound bound w.
  apply (no_session_outcome_as_insufficient_level Fake.memoryStore
           unbound bound Fake.room Fake.alice "0" w w
           (Fake.homeserver {[ Fake.room := Fake.lowLevels ]}) Fake.lowLevels 50 10).
  - exact reachable_constructor.
  - exact (service_reachable Fake.lowLevels).
  - reflexivity.
  - reflexivity.
  - vm_compute. reflexivity.
  - reflexivity.
  - vm_compute. reflexivity.
  - lia.
Defined.

Lemma store_error_propagates_witness :
  let this := Fake.service Fake.highLevels in
  let w := Fake.world tt in
  Promise.isResolved (fst (hasPermission this Fake.alice Fake.room w)) = true
  /\ fst (createWebhook Fake.brokenStore this Fake.room Fake.alice w)
     = Rejected (JS.error "EIO")
  /\ fst (getWebhooks Fake.brokenStore this Fake.room Fake.alice w)
     = Rejected (JS.error "EIO")
  /\ fst (deleteWebhook Fake.brokenStore this Fake.room Fake.alice "0" w)
     = Rejected (JS.error "EIO").
Proof.
  intros this w.
  assert (Hres : Promise.isResolved (fst (hasPermission this Fake.alice Fake.room w)) = true)
    by (vm_compute; reflexivity).
  split; [exact Hres |].
  destruct (store_error_propagates Fake.brokenStore this Fake.room Fake.alice "0" w Hres)
    as (Hcreate & Hlist & Hdelete).
  split; [exact (Hcreate _ eq_refl) |].
  split; [exact (Hlist _ eq_refl) | exact (Hdelete _ eq_refl)].
Defined.

Lemma missing_state_default_rejects_witness :
  let this := Fake.service Fake.noStateDefault in
  let w := Fake.world [] in
  state_default Fake.noStateDefault = None
  /\ fst (hasPermission this Fake.alice Fake.room w) = Rejected JS.no_reason
  /\ fst (createWebhook Fake.memoryStore this Fake.room Fake.alice w)
    = Rejected (JS.message "User does not have permission to manage webhooks in this room")
  /\ fst (getWebhooks Fake.memoryStore this Fake.room Fake.alice w)
    = Rejected (JS.message "User does not have permission to manage webhooks in this room")
  /\ fst (deleteWebhook Fake.memoryStore this Fake.room Fake.alice "0" w)
    = Rejected (JS.message "User does not have permission to manage webhooks in this room").
Proof.
  intros this w. split; [reflexivity |].
  apply (missing_state_default_rejects Fake.memoryStore this Fake.room Fake.alice "0" w
           (Fake.homeserver {[ Fake.room := Fake.noStateDefault ]}) Fake.noStateDefault).
  - exact (service_reachable Fake.noStateDefault).
  - reflexivity.
  - vm_compute. reflexivity.
  - reflexivity.
Defined.

(** C10, as stated, at a concrete input: in a room without [users], with a
    [users_default] of 60 against a [state_default] of 50, the name
    [toString] finds the method that every object inherits. The level is
    that function and not [users_default], and the check denies where the
    level 60 would pass. *)
Lemma missing_users_inherited_name :
  users Fake.noUsers = None
  /\ powerLevel Fake.noUsers "toString"
     = JS.object "function toString() { [native code] }"
  /\ powerLevel Fake.noUsers "toString"
     <> JS.number (default 0 (users_default Fake.noUsers))
  /\ JS.le (JS.prop (state_default Fake.noUsers))
           (JS.number (default 0 (users_default Fake.noUsers))) = true
  /\ fst (hasPermission (Fake.service Fake.noUsers) "toString" Fake.room (Fake.world tt))
     = Rejected JS.no_reason.
Proof.
  split; [reflexivity |].
  assert (Hlevel : powerLevel Fake.noUsers "toString"
                   = JS.object "function toString() { [native code] }")
    by (vm_compute; reflexivity).
  split; [exact Hlevel |]. split; [by rewrite Hlevel |].
  split; by vm_compute.
Qed.

Lemma missing_users_is_empty_mapping_witness :
  users Fake.noUsers = None
  /\ JS.Object_prototype Fake.alice = None
  /\ powerLevel Fake.noUsers Fake.alice = JS.number 60
  /\ fst (hasPermission (Fake.service Fake.noUsers) Fake.alice Fake.room (Fake.world tt))
     = Resolved tt.
Proof.
  split; [reflexivity |].
  assert (Hp : JS.Object_prototype Fake.alice = None) by (vm_compute; reflexivity).
  split; [exact Hp |].
  destruct (missing_users_is_empty_mapping (S:=unit) Fake.noUsers Fake.alice eq_refl)
    as (_ & Hrest).
  destruct (Hrest Hp) as (Hlevel & Hcheck).
  split; [exact Hlevel |].
  apply (Hcheck (Fake.service Fake.noUsers) Fake.room (Fake.world tt)
           (Fake.homeserver {[ Fake.room := Fake.noUsers ]})).
  - reflexivity.
  - vm_compute. reflexivity.
Defined.

(** ** Further properties of the check *)

Section Check.

Context {S : Type}.
Implicit Types (this : t) (w : World S) (userId roomId : string).

Lemma since_app w w' evs : trace w' = trace w ++ evs -> since w w' = evs.
Proof. intros H. unfold since. rewrite H. apply drop_app_length. Qed.

(** What one run of the check adds to the trace: no store call, and one
    read of the room's power levels if a session is bound. *)
Lemma hasPermission_calls this userId roomId w :
  exists evs,
    trace (snd (hasPermission this userId roomId w)) = trace w ++ evs
    /\ List.filter isStoreCall evs = []
    /\ List.filter isRead evs
       = match _intent this with
         | Some _ => [ReadStateEvent roomId "m.room.power_levels" ""]
         | None => []
         end.
Proof.
  run. split_run; rewrite <- ?app_assoc; simpl; by eexists.
Qed.

(** X1. The check succeeds in one case only: a session is bound, the read
    of the room's power levels yields a snapshot, its [state_default] is a
    non-zero number, and the user's effective level reaches it. *)
Theorem hasPermission_resolves_iff this userId roomId w :
  fst (hasPermission this userId roomId w) = Resolved tt
  <-> exists intent powerLevels required level,
        _intent this = Some intent
        /\ getStateEvent intent roomId "m.room.power_levels" ""
           = Resolved (Some powerLevels)
        /\ state_default powerLevels = Some required
        /\ required <> 0
        /\ powerLevel powerLevels userId = JS.number level
        /\ required <= level.
Proof.
  split.
  - destruct (_intent this) as [intent |] eqn:Hi.
    2: { destruct (hasPermission_unbound this userId roomId w Hi) as (? & -> & _).
         done. }
    destruct (getStateEvent intent roomId "m.room.power_levels" "")
      as [[powerLevels |] | r] eqn:Hr.
    + rewrite (hasPermission_snapshot _ _ _ _ _ _ Hi Hr).
      destruct (state_default powerLevels) as [required |] eqn:Hs; simpl; [| done].
      destruct (powerLevel_defined powerLevels userId) as [[level Hl] | [text Hl]];
        rewrite Hl; simpl.
      * destruct (Z.eqb_spec required 0) as [| Hz]; simpl; [done |].
        destruct (Z.leb_spec required level) as [Hle |]; [| done].
        intros _. by exists intent, powerLevels, required, level.
      * by rewrite andb_false_r.
    + run. rewrite Hi. simpl. by rewrite Hr.
    + run. rewrite Hi. simpl. by rewrite Hr.
  - intros (intent & powerLevels & required & level & Hi & Hr & Hs & Hz & Hl & Hle).
    rewrite (hasPermission_snapshot _ _ _ _ _ _ Hi Hr), Hs, Hl. simpl.
    replace (required =? 0) with false by (symmetry; by apply Z.eqb_neq).
    replace (required <=? level) with true by (symmetry; by apply Z.leb_le).
    done.
Qed.

(** X2. A bound service reads the room state once per check, the power
    levels of the room asked about and nothing else; an unbound one does not
    read at all. The check never calls the store. *)
Theorem hasPermission_reads_once this userId roomId w :
  List.filter isRead (since w (snd (hasPermission this userId roomId w)))
  = match _intent this with
    | Some _ => [ReadStateEvent roomId "m.room.power_levels" ""]
    | None => []
    end
  /\ List.filter isStoreCall (since w (snd (hasPermission this userId roomId w))) = []
  /\ store (snd (hasPermission this userId roomId w)) = store w.
Proof.
  destruct (hasPermission_calls this userId roomId w) as (evs & Ht & Hs & Hr).
  rewrite (since_app _ _ _ Ht), Hs, Hr.
  destruct (hasPermission_world this userId roomId w) as (evs' & -> & _).
  by destruct (_intent this).
Qed.

(** X3. If the read of the room state fails, the check fails with the
    reader's own reason, right after the read and without a warning. *)
Theorem reader_failure_passes_through this userId roomId w intent r :
  _intent this = Some intent ->
  getStateEvent intent roomId "m.room.power_levels" "" = Rejected r ->
  hasPermission this userId roomId w
  = (Rejected r,
     {| store := store w;
        trace := trace w ++
          [Log LogService.Verbose "ProvisioningService"
             ("Checking permission for " +:+ userId +:+ " in " +:+ roomId);
           ReadStateEvent roomId "m.room.power_levels" ""] |}).
Proof.
  intros Hi Hr. run. rewrite Hi. simpl. rewrite Hr. simpl.
  by rewrite <- app_assoc.
Qed.

End Check.

(** ** Further properties of the operations *)

Section Delegation.

Context {S Webhook Deleted : Type}.
Variable Store : WebhookStore.t S Webhook Deleted.
Implicit Types (this : t) (w : World S) (userId roomId hookId : string).

(** The trace of a gated operation: its own log line, what the check adds,
    and the store call if the check succeeded. *)
Lemma gated_trace {A} this line userId roomId call (op : S -> Promise A * S) w :
  exists evs,
    trace (snd (gated this line userId roomId call op w))
    = trace w
      ++ Log LogService.Info "ProvisioningService" line
      :: evs
      ++ (if Promise.isResolved (fst (hasPermission this userId roomId w))
          then [call] else [])
    /\ List.filter isStoreCall evs = []
    /\ List.filter isRead evs
       = match _intent this with
         | Some _ => [ReadStateEvent roomId "m.room.power_levels" ""]
         | None => []
         end.
Proof.
  rewrite gated_run. simpl.
  set (w1 := {| store := store w; trace := trace w ++ [_] |}).
  rewrite (hasPermission_outcome this userId roomId w w1).
  destruct (hasPermission_calls this userId roomId w1) as (evs & Ht & Hs & Hr).
  exists evs. split; [| done].
  destruct (hasPermission this userId roomId w1) as [[v | r] w2]; simpl in *.
  - unfold callStore. destruct (op (store w2)) as [p s']. simpl.
    rewrite Ht. by rewrite <- !app_assoc.
  - rewrite Ht, app_nil_r. by rewrite <- !app_assoc.
Qed.

Lemma filter_store_calls evs call (tail : list Event) :
  List.filter isStoreCall evs = [] ->
  List.filter isStoreCall
    (Log LogService.Info "ProvisioningService" call :: evs ++ tail)
  = List.filter isStoreCall tail.
Proof. intros H. simpl. by rewrite List.filter_app, H. Qed.

(** X4. A permitted request is the store's: the outcome of the operation is
    the outcome of the store operation, called with the room and the user
    (create), the room (list), the room and the hook (delete) on the store
    as it was, and the store is left as that operation leaves it. *)
Theorem permitted_request_delegates this roomId userId hookId w :
  Promise.isResolved (fst (hasPermission this userId roomId w)) = true ->
  (createWebhook Store this roomId userId w).1
    = (WebhookStore.createWebhook Store roomId userId (store w)).1
  /\ store (createWebhook Store this roomId userId w).2
    = (WebhookStore.createWebhook Store roomId userId (store w)).2
  /\ (getWebhooks Store this roomId userId w).1
    = (WebhookStore.listWebhooks Store roomId (store w)).1
  /\ store (getWebhooks Store this roomId userId w).2
    = (WebhookStore.listWebhooks Store roomId (store w)).2
  /\ (deleteWebhook Store this roomId userId hookId w).1
    = (WebhookStore.deleteWebhook Store roomId hookId (store w)).1
  /\ store (deleteWebhook Store this roomId userId hookId w).2
    = (WebhookStore.deleteWebhook Store roomId hookId (store w)).2.
Proof.
  intros Hres.
  rewrite createWebhook_gated, getWebhooks_gated, deleteWebhook_gated.
  repeat split; by apply gated_resolved.
Qed.

(** X5. Each operation calls the store exactly when the check succeeds, and
    then once: the one call of its own store operation, with its own
    arguments. *)
Theorem store_called_iff_permitted this roomId userId hookId w :
  let permitted := Promise.isResolved (fst (hasPermission this userId roomId w)) in
  List.filter isStoreCall (since w (snd (createWebhook Store this roomId userId w)))
    = (if permitted then [StoreCreateWebhook roomId userId] else [])
  /\ List.filter isStoreCall (since w (snd (getWebhooks Store this roomId userId w)))
    = (if permitted then [StoreListWebhooks roomId] else [])
  /\ List.filter isStoreCall
       (since w (snd (deleteWebhook Store this roomId userId hookId w)))
    = (if permitted then [StoreDeleteWebhook roomId hookId] else []).
Proof.
  intros permitted. subst permitted.
  rewrite createWebhook_gated, getWebhooks_gated, deleteWebhook_gated.
  repeat split.
  all: match goal with
       | |- context [gated ?t ?l ?u ?r ?c ?op ?v] =>
           destruct (gated_trace t l u r c op v) as (evs & Ht & Hs & _)
       end.
  all: rewrite (since_app _ _ _ Ht), (filter_store_calls _ _ _ Hs).
  all: by destruct (Promise.isResolved _).
Qed.

(** X6. In a permitted request the store is called last, after the check
    has read the room's power levels: authorisation is complete before the
    store is touched. *)
Theorem store_call_comes_last this roomId userId hookId w :
  Promise.isResolved (fst (hasPermission this userId roomId w)) = true ->
  (exists evs,
      since w (snd (createWebhook Store this roomId userId w))
      = evs ++ [StoreCreateWebhook roomId userId]
      /\ List.filter isRead evs = [ReadStateEvent roomId "m.room.power_levels" ""]
      /\ List.filter isStoreCall evs = [])
  /\ (exists evs,
      since w (snd (getWebhooks Store this roomId userId w))
      = evs ++ [StoreListWebhooks roomId]
      /\ List.filter isRead evs = [ReadStateEvent roomId "m.room.power_levels" ""]
      /\ List.filter isStoreCall evs = [])
  /\ (exists evs,
      since w (snd (deleteWebhook Store this roomId userId hookId w))
      = evs ++ [StoreDeleteWebhook roomId hookId]
      /\ List.filter isRead evs = [ReadStateEvent roomId "m.room.power_levels" ""]
      /\ List.filter isStoreCall evs = []).
Proof.
  intros Hres.
  assert (Hbound : exists intent, _intent this = Some intent).
  { destruct (_intent this) eqn:Hi; [by eexists |].
    destruct (hasPermission_unbound this userId roomId w Hi) as (? & Hrun & _).
    by rewrite Hrun in Hres. }
  destruct Hbound as [intent Hi].
  rewrite createWebhook_gated, getWebhooks_gated, deleteWebhook_gated.
  repeat split.
  all: match goal with
       | |- context [gated ?t ?l ?u ?r ?c ?op ?v] =>
           destruct (gated_trace t l u r c op v) as (evs & Ht & Hs & Hr);
           exists (Log LogService.Info "ProvisioningService" l :: evs)
       end.
  all: rewrite (since_app _ _ _ Ht), Hres, Hi in *; simpl; by rewrite ?Hs, ?Hr.
Qed.

End Delegation.

(** ** Further properties of the effective level *)

Section Level.

Context {S : Type}.
Implicit Types (this : t) (w : World S) (userId roomId : string).
Implicit Types (powerLevels : PowerLevels).

(** X7. The effective level in closed form. For a user with an entry in
    [users]: that entry if it is not 0, otherwise [users_default], otherwise
    0. For a user without one: what the user's name finds in
    [Object.prototype] if it finds something, otherwise [users_default],
    otherwise 0. It is never undefined. *)
Theorem powerLevel_closed_form powerLevels userId :
  powerLevel powerLevels userId
  = match default ∅ (users powerLevels) !! userId with
    | Some n =>
        JS.number (if bool_decide (n = 0)
                   then default 0 (users_default powerLevels) else n)
    | None =>
        match JS.Object_prototype userId with
        | Some text => JS.object text
        | None => JS.number (default 0 (users_default powerLevels))
        end
    end.
Proof.
  unfold powerLevel, JS.get.
  destruct (default ∅ (users powerLevels) !! userId) as [n |].
  - rewrite not_number. case_bool_decide as Hn.
    + destruct (users_default powerLevels) as [[] |]; done.
    + by rewrite not_nonzero.
  - destruct (JS.Object_prototype userId); [done |].
    destruct (users_default powerLevels) as [[] |]; done.
Qed.

(** X8. The decision for a user looks at that user's entry only: two
    snapshots that agree on it, on [users_default] and on [state_default]
    give the same level and the same outcome, whatever they say about other
    users. *)
Theorem decision_ignores_other_users
    powerLevels powerLevels' userId this this' roomId w w' intent intent' :
  default ∅ (users powerLevels) !! userId = default ∅ (users powerLevels') !! userId ->
  users_default powerLevels = users_default powerLevels' ->
  state_default powerLevels = state_default powerLevels' ->
  _intent this = Some intent ->
  _intent this' = Some intent' ->
  getStateEvent intent roomId "m.room.power_levels" "" = Resolved (Some powerLevels) ->
  getStateEvent intent' roomId "m.room.power_levels" "" = Resolved (Some powerLevels') ->
  powerLevel powerLevels userId = powerLevel powerLevels' userId
  /\ fst (hasPermission this userId roomId w) = fst (hasPermission this' userId roomId w').
Proof.
  intros Hu Hd Hs Hi Hi' Hr Hr'.
  assert (Hl : powerLevel powerLevels userId = powerLevel powerLevels' userId)
    by (unfold powerLevel, JS.get; by rewrite Hu, Hd).
  split; [done |].
  rewrite (hasPermission_snapshot _ _ _ _ _ _ Hi Hr).
  rewrite (hasPermission_snapshot _ _ _ _ _ _ Hi' Hr').
  by rewrite Hl, Hs.
Qed.

(** X9. The check is monotone in the level: in one room, whoever has at
    least the effective level of a permitted user is permitted too. *)
Theorem higher_level_also_permitted
    this roomId w intent powerLevels userId userId' level level' :
  _intent this = Some intent ->
  getStateEvent intent roomId "m.room.power_levels" "" = Resolved (Some powerLevels) ->
  powerLevel powerLevels userId = JS.number level ->
  powerLevel powerLevels userId' = JS.number level' ->
  level <= level' ->
  fst (hasPermission this userId roomId w) = Resolved tt ->
  fst (hasPermission this userId' roomId w) = Resolved tt.
Proof.
  intros Hi Hr Hl Hl' Hle.
  rewrite !(hasPermission_snapshot _ _ _ _ _ _ Hi Hr), Hl, Hl'.
  destruct (state_default powerLevels) as [required |]; simpl; [| done].
  destruct (negb (required =? 0)); simpl; [| done].
  destruct (Z.leb_spec required level); [| done].
  intros _. by replace (required <=? level') with true by (symmetry; apply Z.leb_le; lia).
Qed.

End Level.

(** ** Binding the session *)

Section Binding.

Context {S : Type}.
Implicit Types (this : t) (w : World S).

(** X10. Last write wins: after any number of [setClient] calls the service
    holds the intent of the last one (or what it held, if there was none),
    and the same message; each call has logged its account and nothing else
    has happened: no read, no store call, the store as it was. *)
Theorem setClients_last_wins this intents w :
  _intent (fst (setClients this intents w))
  = match last intents with
    | Some intent => Some intent
    | None => _intent this
    end
  /\ PERMISSION_ERROR_MESSAGE (fst (setClients this intents w))
     = PERMISSION_ERROR_MESSAGE this
  /\ store (snd (setClients this intents w)) = store w
  /\ since w (snd (setClients this intents w))
     = map (fun intent =>
              Log LogService.Verbose "ProvisioningService"
                ("Received intent. Using account " +:+ credentials_userId intent))
           intents.
Proof.
  assert (Htrace : forall intents this w,
    trace (snd (setClients this intents w))
    = trace w ++ map (fun intent =>
                        Log LogService.Verbose "ProvisioningService"
                          ("Received intent. Using account "
                           +:+ credentials_userId intent)) intents).
  { clear. induction intents as [| intent intents IH]; intros this w; simpl.
    - by rewrite app_nil_r.
    - unfold bind. simpl. rewrite IH. simpl. by rewrite <- app_assoc. }
  split; [| split; [| split]].
  - revert this w. induction intents as [| intent intents IH]; intros this w.
    + done.
    + simpl. unfold bind. simpl. rewrite IH. simpl.
      rewrite last_cons. by destruct (last intents).
  - revert this w. induction intents as [| intent intents IH]; intros this w.
    + done.
    + simpl. unfold bind. simpl. by rewrite IH.
  - revert this w. induction intents as [| intent intents IH]; intros this w.
    + done.
    + simpl. unfold bind. simpl. by rewrite IH.
  - apply since_app, Htrace.
Qed.

(** X11. Every instance a program can hold carries the message the
    constructor set, and is without a session only if [setClient] has never
    been called on it: once bound, it stays bound. *)
Theorem reachable_invariant this :
  reachable this ->
  PERMISSION_ERROR_MESSAGE this
  = "User does not have permission to manage webhooks in this room"
  /\ (_intent this = None -> this = constructor).
Proof.
  intros Hreach. split; [by apply reachable_message |].
  by destruct Hreach.
Qed.

End Binding.

(** ** The further properties at concrete inputs *)

Lemma reader_failure_passes_through_witness :
  let this := fst (setClient constructor Fake.offline (Fake.world tt)) in
  fst (hasPermission this Fake.alice Fake.room (Fake.world tt))
  = Rejected (JS.error "ECONNREFUSED").
Proof.
  intros this.
  exact (f_equal fst
           (reader_failure_passes_through this Fake.alice Fake.room (Fake.world tt)
              Fake.offline (JS.error "ECONNREFUSED") eq_refl eq_refl)).
Defined.

Lemma permitted_request_delegates_witness :
  let this := Fake.service Fake.highLevels in
  let w := Fake.world [] in
  Promise.isResolved (fst (hasPermission this Fake.alice Fake.room w)) = true
  /\ (createWebhook Fake.memoryStore this Fake.room Fake.alice w).1
    = (WebhookStore.createWebhook Fake.memoryStore Fake.room Fake.alice (store w)).1
  /\ store (createWebhook Fake.memoryStore this Fake.room Fake.alice w).2
    = (WebhookStore.createWebhook Fake.memoryStore Fake.room Fake.alice (store w)).2
  /\ (getWebhooks Fake.memoryStore this Fake.room Fake.alice w).1
    = (WebhookStore.listWebhooks Fake.memoryStore Fake.room (store w)).1
  /\ store (getWebhooks Fake.memoryStore this Fake.room Fake.alice w).2
    = (WebhookStore.listWebhooks Fake.memoryStore Fake.room (store w)).2
  /\ (deleteWebhook Fake.memoryStore this Fake.room Fake.alice "7" w).1
    = (WebhookStore.deleteWebhook Fake.memoryStore Fake.room "7" (store w)).1
  /\ store (deleteWebhook Fake.memoryStore this Fake.room Fake.alice "7" w).2
    = (WebhookStore.deleteWebhook Fake.memoryStore Fake.room "7" (store w)).2.
Proof.
  intros this w.
  assert (Hres : Promise.isResolved (fst (hasPermission this Fake.alice Fake.room w)) = true)
    by (vm_compute; reflexivity).
  split; [exact Hres |].
  exact (permitted_request_delegates Fake.memoryStore this Fake.room Fake.alice "7" w Hres).
Defined.

Lemma store_call_comes_last_witness :
  let this := Fake.service Fake.highLevels in
  let w := Fake.world [] in
  Promise.isResolved (fst (hasPermission this Fake.alice Fake.room w)) = true
  /\ (exists evs,
        since w (snd (createWebhook Fake.memoryStore this Fake.room Fake.alice w))
        = evs ++ [StoreCreateWebhook Fake.room Fake.alice]
        /\ List.filter isRead evs = [ReadStateEvent Fake.room "m.room.power_levels" ""]
        /\ List.filter isStoreCall evs = []).
Proof.
  intros this w.
  assert (Hres : Promise.isResolved (fst (hasPermission this Fake.alice Fake.room w)) = true)
    by (vm_compute; reflexivity).
  split; [exact Hres |].
  exact (proj1 (store_call_comes_last Fake.memoryStore this Fake.room Fake.alice "7" w Hres)).
Defined.

Lemma decision_ignores_other_users_witness :
  powerLevel Fake.lowLevels Fake.alice = powerLevel Fake.twoUsers Fake.alice
  /\ fst (hasPermission (Fake.service Fake.lowLevels) Fake.alice Fake.room (Fake.world tt))
     = fst (hasPermission (Fake.service Fake.twoUsers) Fake.alice Fake.room (Fake.world tt)).
Proof.
  apply (decision_ignores_other_users Fake.lowLevels Fake.twoUsers Fake.alice
           (Fake.service Fake.lowLevels) (Fake.service Fake.twoUsers) Fake.room
           (Fake.world tt) (Fake.world tt)
           (Fake.homeserver {[ Fake.room := Fake.lowLevels ]})
           (Fake.homeserver {[ Fake.room := Fake.twoUsers ]})).
  - vm_compute. reflexivity.
  - reflexivity.
  - reflexivity.
  - reflexivity.
  - reflexivity.
  - vm_compute. reflexivity.
  - vm_compute. reflexivity.
Defined.

Lemma higher_level_also_permitted_witness :
  let this := Fake.service Fake.listedAtZero in
  fst (hasPermission this Fake.alice Fake.room (Fake.world tt)) = Resolved tt
  /\ fst (hasPermission this Fake.bob Fake.room (Fake.world tt)) = Resolved tt.
Proof.
  intros this.
  assert (Halice : fst (hasPermission this Fake.alice Fake.room (Fake.world tt)) = Resolved tt)
    by (vm_compute; reflexivity).
  split; [exact Halice |].
  apply (higher_level_also_permitted this Fake.room (Fake.world tt)
           (Fake.homeserver {[ Fake.room := Fake.listedAtZero ]}) Fake.listedAtZero
           Fake.alice Fake.bob 50 50).
  - reflexivity.
  - vm_compute. reflexivity.
  - vm_compute. reflexivity.
  - vm_compute. reflexivity.
  - lia.
  - exact Halice.
Defined.

Lemma reachable_invariant_witness :
  PERMISSION_ERROR_MESSAGE (Fake.service Fake.lowLevels)
  = "User does not have permission to manage webhooks in this room"
  /\ (_intent (Fake.service Fake.lowLevels) = None
      -> Fake.service Fake.lowLevels = constructor).
Proof.
  exact (reachable_invariant (Fake.service Fake.lowLevels)
           (service_reachable Fake.lowLevels)).
Defined.
